(** * Arcade physics: horizontal separation of two overlapping bodies

    A shallow embedding of [src/physics/arcade/SeparateX.js] and the
    properties of its natural-language specification.

    JavaScript numbers are idealised as real numbers: the decision table of
    the resolver only compares, adds, multiplies, divides and takes square
    roots, and the specification states its formulas over exact arithmetic.
    Rounding, NaN and signed zero are outside this model. *)

From Stdlib Require Import Floats.
From Stdlib Require Import Reals Lra Bool ZArith.

Open Scope R_scope.

(** ** Numeric tests of the source, as booleans *)

(** [a < b] as the source's [<] on numbers. *)
Definition Rltb (a b : R) : bool := if Rlt_dec a b then true else false.

(** [a === b] on numbers. *)
Definition Reqb (a b : R) : bool := if Req_dec_T a b then true else false.

(** ** Data model *)

(** The two-component vectors held by a body ([velocity], [bounce],
    [minVelocity]). *)
Module Vector2.
Record t : Type := mk { x : R; y : R }.

Definition with_x (v : R) (p : t) : t := mk v (y p).
End Vector2.

(** Modelled from the spec: [const.js] is not part of the sources at hand;
    a body is either dynamic or of the static type. *)
Inductive PhysicsType : Type := DYNAMIC_BODY | STATIC_BODY.

Definition PhysicsType_eqb (a b : PhysicsType) : bool :=
  match a, b with
  | DYNAMIC_BODY, DYNAMIC_BODY | STATIC_BODY, STATIC_BODY => true
  | _, _ => false
  end.

(** Modelled from the spec: the contact face of [const.js], one of two
    opposing values for the horizontal axis. *)
Inductive Facing : Type := FACING_LEFT | FACING_RIGHT.

Definition Facing_eqb (a b : Facing) : bool :=
  match a, b with
  | FACING_LEFT, FACING_LEFT | FACING_RIGHT, FACING_RIGHT => true
  | _, _ => false
  end.

(** Modelled from the spec: the per-face blocked state of a body, for the two
    faces of the horizontal axis. Each face holds the identity of the body
    that blocks it, if any. *)
Module Blocked.
Record t : Type := mk { left : option nat; right : option nat }.

Definition none : t := mk None None.
End Blocked.

(** The fields of [Phaser.Physics.Arcade.Body] that [SeparateX] reads or
    writes. [id] stands for the identity of the JavaScript object; [blocked]
    is the state behind the [isBlocked...]/[setBlocked...] methods. *)
Module Body.
Record t : Type := mk {
  id : nat;
  x : R;
  y : R;
  velocity : Vector2.t;
  bounce : Vector2.t;
  minVelocity : Vector2.t;
  mass : R;
  physicsType : PhysicsType;
  immovable : bool;
  customSeparateX : bool;
  embedded : bool;
  rideable : bool;
  moves : bool;
  sleeping : bool;
  blocked : Blocked.t
}.

(** [body.y = v] *)
Definition with_y (v : R) (b : t) : t :=
  mk (id b) (x b) v (velocity b) (bounce b) (minVelocity b) (mass b)
     (physicsType b) (immovable b) (customSeparateX b) (embedded b)
     (rideable b) (moves b) (sleeping b) (blocked b).

(** [body.velocity.x = v] *)
Definition with_velocity_x (v : R) (b : t) : t :=
  mk (id b) (x b) (y b) (Vector2.with_x v (velocity b)) (bounce b)
     (minVelocity b) (mass b) (physicsType b) (immovable b)
     (customSeparateX b) (embedded b) (rideable b) (moves b) (sleeping b)
     (blocked b).

Definition with_sleeping (v : bool) (b : t) : t :=
  mk (id b) (x b) (y b) (velocity b) (bounce b) (minVelocity b) (mass b)
     (physicsType b) (immovable b) (customSeparateX b) (embedded b)
     (rideable b) (moves b) v (blocked b).

Definition with_blocked (v : Blocked.t) (b : t) : t :=
  mk (id b) (x b) (y b) (velocity b) (bounce b) (minVelocity b) (mass b)
     (physicsType b) (immovable b) (customSeparateX b) (embedded b)
     (rideable b) (moves b) (sleeping b) v.
End Body.

(** The result of [GetOverlapX] for one pair. The source reads the overlap
    from the field [overlapY]. *)
Module CollisionInfo.
Record t : Type := mk {
  overlapY : R;
  face : Facing;
  intersects : bool;
  share1 : R;
  share2 : R
}.
End CollisionInfo.

(** The receiver of the call: [this], whose [world._frame] the abort branch
    prints. [None] for [this] is a call without a receiver; [None] for
    [world] is a receiver without a [world] property. *)
Record World : Type := mkWorld { _frame : Z }.
Record Receiver : Type := mkReceiver { world : option World }.

(** [this.world._frame]: a [TypeError] ([None]) when [this] or [this.world]
    is undefined. *)
Definition this_world_frame (this : option Receiver) : option Z :=
  match this with
  | None => None
  | Some r =>
      match world r with
      | None => None
      | Some w => Some (_frame w)
      end
  end.

(** How a call ends: it returns a boolean or throws. *)
Inductive Completion : Type :=
  | Return (v : bool)
  | ThrowTypeError.

(** The two bodies after the call, and how the call ended. *)
Record Outcome : Type := mkOutcome {
  out1 : Body.t;
  out2 : Body.t;
  completion : Completion
}.

(** ** The collaborators of the resolver *)

(** The methods of [Body] that [SeparateX] calls; [Body.js] is not part of
    the sources at hand, so the resolver is stated over any implementation
    of them. The readers are pure; [setBlockedLeft], [setBlockedRight] and
    [wake] return the receiver after the call. *)
Class BodyMethods : Type := {
  movingX : Body.t -> bool;
  isBlockedLeft : Body.t -> bool;
  isBlockedRight : Body.t -> bool;
  isBlockedX : Body.t -> bool;
  getMoveX : Body.t -> R -> R;
  setBlockedLeft : Body.t -> CollisionInfo.t -> Body.t -> Body.t;
  setBlockedRight : Body.t -> CollisionInfo.t -> Body.t -> Body.t;
  wake : Body.t -> Body.t
}.

(** The overlap probe, [GetOverlapX.js], likewise absent: a measurement of
    the pair. *)
Class OverlapProbe : Type := {
  GetOverlapX : Body.t -> Body.t -> bool -> R -> CollisionInfo.t
}.

(** ** The resolver *)

Section Resolver.
Context {methods : BodyMethods} {probe : OverlapProbe}.

(** Lines 54-55: [physicsType === CONST.STATIC_BODY || immovable]. *)
Definition isImmovable (body : Body.t) : bool :=
  PhysicsType_eqb (Body.physicsType body) STATIC_BODY || Body.immovable body.

(** Line 60: the condition of the abort branch. *)
Definition aborts (collisionInfo : CollisionInfo.t) (body1 body2 : Body.t)
    (overlapOnly : bool) : bool :=
  negb (CollisionInfo.intersects collisionInfo) || overlapOnly
  || (isImmovable body1 && isImmovable body2)
  || Body.customSeparateX body1 || Body.customSeparateX body2.

(** Line 65: the value the abort branch returns. *)
Definition abortValue (collisionInfo : CollisionInfo.t) (body1 body2 : Body.t)
    : bool :=
  (CollisionInfo.intersects collisionInfo
   && negb (Reqb (CollisionInfo.overlapY collisionInfo) 0))
  || (Body.embedded body1 && Body.embedded body2).

(** [(x > 0) ? 1 : -1] *)
Definition direction (x : R) : R := if Rltb 0 x then 1 else -1.

(** Lines 91-100: the exchanged velocities [bnx1], [bnx2] of two moving
    bodies. *)
Definition exchange (body1 body2 : Body.t) : R * R :=
  let x1 := Vector2.x (Body.velocity body1) in
  let x2 := Vector2.x (Body.velocity body2) in
  let mass1 := Body.mass body1 in
  let mass2 := Body.mass body2 in
  if Reqb mass1 mass2 then
    (Rabs x2 * direction x2, Rabs x1 * direction x1)
  else
    (sqrt ((x2 * x2 * mass2) / mass1) * direction x2,
     sqrt ((x1 * x1 * mass1) / mass2) * direction x1).

(** Lines 69-173: the new velocities [nx1], [nx2] after the impact. *)
Definition impact (leftFace : bool) (body1 body2 : Body.t) : R * R :=
  let x1 := Vector2.x (Body.velocity body1) in
  let x2 := Vector2.x (Body.velocity body2) in
  let moving1 := movingX body1 in
  let moving2 := movingX body2 in
  if moving1 && moving2 then
    let bnx1 := fst (exchange body1 body2) in
    let bnx2 := snd (exchange body1 body2) in
    let avg := (bnx1 + bnx2) * / 2 in
    let nv1 := bnx1 - avg in
    let nv2 := bnx2 - avg in
    (avg + nv1 * Vector2.x (Body.bounce body1),
     avg + nv2 * Vector2.x (Body.bounce body2))
  else if negb moving1 && moving2 then
    (x1,
     if Body.rideable body1 then (if leftFace then 1 else -1)
     else x1 - x2 * Vector2.x (Body.bounce body2))
  else if moving1 && negb moving2 then
    (if Body.rideable body2 then (if leftFace then 1 else -1)
     else x2 - x1 * Vector2.x (Body.bounce body1),
     x2)
  else
    (0, 0).

(** Line 180: interpenetrating bodies neither of which is given a share. *)
Definition degenerate (collisionInfo : CollisionInfo.t) : bool :=
  Reqb (CollisionInfo.share1 collisionInfo) 0
  && Reqb (CollisionInfo.share2 collisionInfo) 0
  && negb (Reqb (CollisionInfo.overlapY collisionInfo) 0).

(** Lines 189-202, for one body: a small velocity that changed sign is
    dropped. [x] is the velocity before the impact, [nx] after it. *)
Definition flipFlop (body : Body.t) (x nx : R) : R :=
  let flip := (Rltb x 0 && Rltb 0 nx) || (Rltb 0 x && Rltb nx 0) in
  if negb (Body.sleeping body) && flip
     && Rltb (Rabs nx) (Vector2.x (Body.minVelocity body))
  then 0 else nx.

(** Lines 207-282: position and blocked state of [body1]; returns the body
    and its velocity [nx1]. *)
Definition separate1 (collisionInfo : CollisionInfo.t) (leftFace : bool)
    (body1 body2 : Body.t) (nx1 : R) : Body.t * R :=
  let rightFace := negb leftFace in
  let totalA := CollisionInfo.share1 collisionInfo in
  if negb (Reqb nx1 0) then
    let body1 :=
      if leftFace then
        if isBlockedLeft body2 then setBlockedLeft body1 collisionInfo body2
        else Body.with_y (Body.y body1 + getMoveX body1 totalA) body1
      else if rightFace then
        if isBlockedRight body2 then setBlockedRight body1 collisionInfo body2
        else Body.with_y (Body.y body1 + getMoveX body1 totalA) body1
      else body1 in
    if (Body.sleeping body1 && (Rltb nx1 0 && isBlockedLeft body1))
       || (Rltb 0 nx1 && isBlockedRight body1)
    then (body1, 0) else (body1, nx1)
  else if Body.moves body1 then
    if leftFace then
      let body1 :=
        if negb (Reqb totalA 0) && negb (isBlockedRight body1)
        then Body.with_y (Body.y body1 + getMoveX body1 totalA) body1
        else body1 in
      let body1 :=
        if isBlockedLeft body2 then setBlockedLeft body1 collisionInfo body2
        else body1 in
      (body1, nx1)
    else if rightFace then
      let body1 :=
        if negb (Reqb totalA 0) && negb (isBlockedRight body1)
        then Body.with_y (Body.y body1 + getMoveX body1 totalA) body1
        else body1 in
      let body1 :=
        if isBlockedRight body2 then setBlockedRight body1 collisionInfo body2
        else body1 in
      (body1, nx1)
    else (body1, nx1)
  else (body1, nx1).

(** Lines 284-358: position and blocked state of [body2], against [body1]
    as [separate1] left it; returns the body and its velocity [nx2]. *)
Definition separate2 (collisionInfo : CollisionInfo.t) (leftFace : bool)
    (body1 body2 : Body.t) (nx2 : R) : Body.t * R :=
  let rightFace := negb leftFace in
  let totalB := CollisionInfo.share2 collisionInfo in
  if negb (Reqb nx2 0) then
    let body2 :=
      if leftFace then
        if isBlockedRight body1 then setBlockedRight body2 collisionInfo body1
        else Body.with_y (Body.y body2 + getMoveX body2 totalB) body2
      else if rightFace then
        if isBlockedLeft body1 then setBlockedLeft body2 collisionInfo body1
        else Body.with_y (Body.y body2 + getMoveX body2 totalB) body2
      else body2 in
    if (Body.sleeping body2 && (Rltb nx2 0 && isBlockedLeft body2))
       || (Rltb 0 nx2 && isBlockedRight body2)
    then (body2, 0) else (body2, nx2)
  else if Body.moves body2 then
    if leftFace then
      let body2 :=
        if negb (Reqb totalB 0) && negb (isBlockedRight body2)
        then Body.with_y (Body.y body2 + getMoveX body2 totalB) body2
        else body2 in
      let body2 :=
        if isBlockedRight body1 then setBlockedRight body2 collisionInfo body1
        else body2 in
      (body2, nx2)
    else if rightFace then
      let body2 :=
        if negb (Reqb totalB 0) && negb (isBlockedLeft body2)
        then Body.with_y (Body.y body2 + getMoveX body2 totalB) body2
        else body2 in
      let body2 :=
        if isBlockedLeft body1 then setBlockedLeft body2 collisionInfo body1
        else body2 in
      (body2, nx2)
    else (body2, nx2)
  else (body2, nx2).

(** Lines 362-370, for one body. *)
Definition blockedX (body : Body.t) (nx : R) : R :=
  if isBlockedX body then 0 else nx.

(** Lines 374-400, for one body: returns the body and its velocity. *)
Definition wakey (body : Body.t) (nx : R) : Body.t * R :=
  if Body.sleeping body then
    if Rltb (Rabs nx) (Vector2.x (Body.minVelocity body)) then (body, 0)
    else (wake body, nx)
  else (body, nx).

(** Lines 188-400: the bodies and velocities that reach the sleep step
    (lines 188-370). *)
Definition beforeWake (collisionInfo : CollisionInfo.t)
    (body1 body2 : Body.t) : (Body.t * R) * (Body.t * R) :=
  let leftFace := Facing_eqb (CollisionInfo.face collisionInfo) FACING_LEFT in
  let x1 := Vector2.x (Body.velocity body1) in
  let x2 := Vector2.x (Body.velocity body2) in
  let nx1 := fst (impact leftFace body1 body2) in
  let nx2 := snd (impact leftFace body1 body2) in
  let nx1 := flipFlop body1 x1 nx1 in
  let nx2 := flipFlop body2 x2 nx2 in
  let r1 := separate1 collisionInfo leftFace body1 body2 nx1 in
  let r2 := separate2 collisionInfo leftFace (fst r1) body2 nx2 in
  ((fst r1, blockedX (fst r1) (snd r1)), (fst r2, blockedX (fst r2) (snd r2))).

(** [SeparateX(body1, body2, overlapOnly, bias)], called on [this]. *)
Definition SeparateX (this : option Receiver) (body1 body2 : Body.t)
    (overlapOnly : bool) (bias : R) : Outcome :=
  let collisionInfo := GetOverlapX body1 body2 overlapOnly bias in
  if aborts collisionInfo body1 body2 overlapOnly then
    (* console.log(this.world._frame, 'SeparateX aborted') *)
    match this_world_frame this with
    | None => mkOutcome body1 body2 ThrowTypeError
    | Some _ =>
        mkOutcome body1 body2 (Return (abortValue collisionInfo body1 body2))
    end
  else if degenerate collisionInfo then
    mkOutcome (Body.with_velocity_x 0 body1) (Body.with_velocity_x 0 body2)
      (Return true)
  else
    let r := beforeWake collisionInfo body1 body2 in
    let w1 := wakey (fst (fst r)) (snd (fst r)) in
    let w2 := wakey (fst (snd r)) (snd (snd r)) in
    mkOutcome (Body.with_velocity_x (snd w1) (fst w1))
      (Body.with_velocity_x (snd w2) (fst w2)) (Return true).

End Resolver.

(** ** The body methods and the probe, as the specification describes them *)

Module SpecBody.

(** Modelled from the spec: [Body.isBlockedLeft], absent from the sources at
    hand. A face is blocked when it records a blocking body. *)
Definition isBlockedLeft (body : Body.t) : bool :=
  match Blocked.left (Body.blocked body) with Some _ => true | None => false end.

(** Modelled from the spec: [Body.isBlockedRight], absent from the sources at
    hand. *)
Definition isBlockedRight (body : Body.t) : bool :=
  match Blocked.right (Body.blocked body) with Some _ => true | None => false end.

(** Modelled from the spec: [Body.isBlockedX], absent from the sources at
    hand. The body is flagged blocked along the horizontal axis. *)
Definition isBlockedX (body : Body.t) : bool :=
  isBlockedLeft body || isBlockedRight body.

(** Modelled from the spec: [Body.movingX], absent from the sources at hand.
    The velocity component is nonzero and the body is not blocked in that
    direction. *)
Definition movingX (body : Body.t) : bool :=
  let vx := Vector2.x (Body.velocity body) in
  (Rltb vx 0 && negb (isBlockedLeft body))
  || (Rltb 0 vx && negb (isBlockedRight body)).

(** Modelled from the spec: [Body.getMoveX], absent from the sources at hand.
    The body is translated by its apportioned share. *)
Definition getMoveX (body : Body.t) (amount : R) : R := amount.

(** Modelled from the spec: [Body.setBlockedLeft], absent from the sources at
    hand. Marks the face blocked and records the blocking body. *)
Definition setBlockedLeft (body : Body.t) (collisionInfo : CollisionInfo.t)
    (by_ : Body.t) : Body.t :=
  Body.with_blocked
    (Blocked.mk (Some (Body.id by_)) (Blocked.right (Body.blocked body))) body.

(** Modelled from the spec: [Body.setBlockedRight], absent from the sources
    at hand. *)
Definition setBlockedRight (body : Body.t) (collisionInfo : CollisionInfo.t)
    (by_ : Body.t) : Body.t :=
  Body.with_blocked
    (Blocked.mk (Blocked.left (Body.blocked body)) (Some (Body.id by_))) body.

(** Modelled from the spec: [Body.wake], absent from the sources at hand.
    The body is no longer sleeping. *)
Definition wake (body : Body.t) : Body.t := Body.with_sleeping false body.

#[export] Instance methods : BodyMethods :=
  Build_BodyMethods movingX isBlockedLeft isBlockedRight isBlockedX getMoveX
    setBlockedLeft setBlockedRight wake.

(** A probe that reports a fixed measurement. *)
Definition reports (collisionInfo : CollisionInfo.t) : OverlapProbe :=
  {| GetOverlapX := fun _ _ _ _ => collisionInfo |}.

End SpecBody.

(** What the specification says of the body methods beyond their
    signatures: waking a body clears its sleeping flag, and neither waking
    a body nor marking one of its faces blocked moves it along the axis. *)
Class BodyMethodsLaws (methods : BodyMethods) : Prop := {
  wake_sleeping : forall body, Body.sleeping (wake body) = false;
  wake_x : forall body, Body.x (wake body) = Body.x body;
  setBlockedLeft_x : forall body collisionInfo by_,
    Body.x (setBlockedLeft body collisionInfo by_) = Body.x body;
  setBlockedRight_x : forall body collisionInfo by_,
    Body.x (setBlockedRight body collisionInfo by_) = Body.x body
}.

(** ** The formulas of the specification *)




(** The unit nudge of the specification: positive away from a left contact
    face, negative away from a right one. *)
Definition nudge (collisionInfo : CollisionInfo.t) : R :=
  match CollisionInfo.face collisionInfo with
  | FACING_LEFT => 1
  | FACING_RIGHT => -1
  end.

(** The sleep step as the code performs it, between a body and velocity
    entering the step and the body the call leaves behind: a sleeping body
    is woken exactly when the magnitude of its velocity is not below its
    minimum velocity, and keeps that velocity; otherwise it stays asleep
    with velocity 0; a body that is not sleeping only has its velocity
    committed. *)
Definition hysteresis (entering : Body.t * R) (after : Body.t) : Prop :=
  let body := fst entering in
  let nx := snd entering in
  let threshold := Vector2.x (Body.minVelocity body) in
  (Body.sleeping body = true ->
   (Body.sleeping after = false <-> threshold <= Rabs nx)
   /\ (threshold <= Rabs nx -> Vector2.x (Body.velocity after) = nx)
   /\ (Rabs nx < threshold ->
       Vector2.x (Body.velocity after) = 0 /\ Body.sleeping after = true))
  /\ (Body.sleeping body = false -> after = Body.with_velocity_x nx body).

(** ** Sample calls *)

Module Sample.
Import SpecBody.

Definition noReceiver : option Receiver := None.

Definition inWorld : option Receiver :=
  Some (mkReceiver (Some (mkWorld 7))).

(** A body at rest under physics control, mass 1. *)
Definition resting (id : nat) (x y : R) : Body.t :=
  Body.mk id x y (Vector2.mk 0 0) (Vector2.mk 0 0) (Vector2.mk 0 0) 1
    DYNAMIC_BODY false false false false true false Blocked.none.

(** An immovable wall. *)
Definition wall (id : nat) (x y : R) : Body.t :=
  Body.mk id x y (Vector2.mk 0 0) (Vector2.mk 0 0) (Vector2.mk 0 0) 1
    STATIC_BODY true false false false false false Blocked.none.

(** An immovable platform that carries what rests against it. *)
Definition platform (id : nat) (x y : R) : Body.t :=
  Body.mk id x y (Vector2.mk 0 0) (Vector2.mk 0 0) (Vector2.mk 0 0) 1
    STATIC_BODY true false false true false false Blocked.none.

(** A body of mass [m] moving at [vx] with horizontal bounce [bx] and
    minimum velocity [minx]. *)
Definition mover (id : nat) (x y vx bx minx m : R) (sleeping : bool) : Body.t :=
  Body.mk id x y (Vector2.mk vx 0) (Vector2.mk bx 0) (Vector2.mk minx 0) m
    DYNAMIC_BODY false false false false true sleeping Blocked.none.

(** A measurement of an intersecting pair. *)
Definition contact (face : Facing) (overlap share1 share2 : R)
    : CollisionInfo.t :=
  CollisionInfo.mk overlap face true share1 share2.

(** A measurement of a pair that does not intersect. *)
Definition apart : CollisionInfo.t :=
  CollisionInfo.mk 0 FACING_LEFT false 0 0.

(** A body bouncing off a wall on its left: velocity -3, bounce 1. *)
Definition bouncer : Body.t := mover 1 10 20 (-3) 1 0 1 false.

(** A resting body blocked on one face by some body 7. *)
Definition blockedLeft (b : Body.t) : Body.t :=
  Body.with_blocked (Blocked.mk (Some 7%nat) None) b.

Definition blockedRight (b : Body.t) : Body.t :=
  Body.with_blocked (Blocked.mk None (Some 7%nat)) b.

(** Two embedded bodies. *)
Definition embeddedBody (id : nat) : Body.t :=
  Body.mk id 0 0 (Vector2.mk 0 0) (Vector2.mk 0 0) (Vector2.mk 0 0) 1
    DYNAMIC_BODY false false true false true false Blocked.none.

(** A call of the resolver with the methods of the specification, on a pair
    for which the probe reports [collisionInfo]. *)
Definition resolve (collisionInfo : CollisionInfo.t) (this : option Receiver)
    (body1 body2 : Body.t) (overlapOnly : bool) (bias : R) : Outcome :=
  @SeparateX methods (reports collisionInfo) this body1 body2 overlapOnly bias.

(** The same pair seen by [separate1] alone. *)
Definition resolve1 (collisionInfo : CollisionInfo.t) (body1 body2 : Body.t)
    (nx1 : R) : Body.t * R :=
  @separate1 methods collisionInfo
    (Facing_eqb (CollisionInfo.face collisionInfo) FACING_LEFT) body1 body2 nx1.

End Sample.

(** ** Four sentences of the specification, as they are written

    Each is stated for one call; the code is compared with them below. *)

Section Stated.
Context {methods : BodyMethods} {probe : OverlapProbe}.

(** "For all pairs with intersects = false: resolve returns false; neither
    body's velocity nor position changes." *)
Definition stated_apart_returns_false (this : option Receiver)
    (body1 body2 : Body.t) (overlapOnly : bool) (bias : R) : Prop :=
  CollisionInfo.intersects (GetOverlapX body1 body2 overlapOnly bias) = false ->
  SeparateX this body1 body2 overlapOnly bias
  = mkOutcome body1 body2 (Return false).

(** "A sleeping body wakes only if its resolved velocity magnitude exceeds
    its minimum-velocity threshold", read as an equivalence, for the first
    body of a call that reaches the sleep step. *)
Definition stated_wakes_iff_exceeds (this : option Receiver)
    (body1 body2 : Body.t) (overlapOnly : bool) (bias : R) : Prop :=
  let collisionInfo := GetOverlapX body1 body2 overlapOnly bias in
  let entering := fst (beforeWake collisionInfo body1 body2) in
  aborts collisionInfo body1 body2 overlapOnly = false ->
  degenerate collisionInfo = false ->
  Body.sleeping (fst entering) = true ->
  (Body.sleeping (out1 (SeparateX this body1 body2 overlapOnly bias)) = false
   <-> Vector2.x (Body.minVelocity (fst entering)) < Rabs (snd entering)).



End Stated.

(** Further frame conditions on the body methods: waking a body or marking
    one of its faces blocked does not move it across the axis either, and
    whether a body is blocked along the axis depends neither on its sleeping
    flag nor on its velocity. *)
Class BodyMethodsFrame (methods : BodyMethods) : Prop := {
  wake_y : forall body, Body.y (wake body) = Body.y body;
  setBlockedLeft_y : forall body collisionInfo by_,
    Body.y (setBlockedLeft body collisionInfo by_) = Body.y body;
  setBlockedRight_y : forall body collisionInfo by_,
    Body.y (setBlockedRight body collisionInfo by_) = Body.y body;
  isBlockedX_wake : forall body, isBlockedX (wake body) = isBlockedX body;
  isBlockedX_velocity : forall v body,
    isBlockedX (Body.with_velocity_x v body) = isBlockedX body
}.

(** ** When a velocity is dropped after the impact *)

Section Dropped.
Context {methods : BodyMethods}.


End Dropped.

(** ** Lines 91-100 in IEEE doubles

    The exchanged velocities once more, over binary64 numbers with the
    operations of the source in the order of the source, to compare the two
    branches bit for bit. *)






(** * Properties *)

(** ** Numeric tests *)

Lemma Rltb_true (a b : R) : Rltb a b = true <-> a < b.
Proof. unfold Rltb; destruct (Rlt_dec a b); split; intros; auto; discriminate. Qed.

Lemma Rltb_false (a b : R) : Rltb a b = false <-> ~ a < b.
Proof. unfold Rltb; destruct (Rlt_dec a b); split; intros; auto; try discriminate; contradiction. Qed.

Lemma Reqb_true (a b : R) : Reqb a b = true <-> a = b.
Proof. unfold Reqb; destruct (Req_dec_T a b); split; intros; auto; discriminate. Qed.

Lemma Reqb_false (a b : R) : Reqb a b = false <-> a <> b.
Proof. unfold Reqb; destruct (Req_dec_T a b); split; intros; auto; try discriminate; contradiction. Qed.

Lemma Reqb_refl (a : R) : Reqb a a = true.
Proof. apply Reqb_true; reflexivity. Qed.




(** ** The abort branch *)

Section Abort.
Context {methods : BodyMethods} {probe : OverlapProbe}.

Lemma aborts_true_iff (collisionInfo : CollisionInfo.t) (body1 body2 : Body.t)
    (overlapOnly : bool) :
  aborts collisionInfo body1 body2 overlapOnly = true <->
  (CollisionInfo.intersects collisionInfo = false
   \/ overlapOnly = true
   \/ (isImmovable body1 = true /\ isImmovable body2 = true)
   \/ Body.customSeparateX body1 = true
   \/ Body.customSeparateX body2 = true).
Proof.
  unfold aborts.
  rewrite !orb_true_iff, andb_true_iff, negb_true_iff.
  tauto.
Qed.

Lemma this_world_frame_None (this : option Receiver) :
  (this = None \/ exists r, this = Some r /\ world r = None) ->
  this_world_frame this = None.
Proof.
  intros [-> | [r [-> Hw]]]; cbn; [reflexivity|].
  rewrite Hw; reflexivity.
Qed.

Lemma SeparateX_aborted (this : option Receiver) (body1 body2 : Body.t)
    (overlapOnly : bool) (bias : R) :
  aborts (GetOverlapX body1 body2 overlapOnly bias) body1 body2 overlapOnly
  = true ->
  SeparateX this body1 body2 overlapOnly bias
  = match this_world_frame this with
    | None => mkOutcome body1 body2 ThrowTypeError
    | Some _ =>
        mkOutcome body1 body2
          (Return (abortValue (GetOverlapX body1 body2 overlapOnly bias)
                     body1 body2))
    end.
Proof. intros H; unfold SeparateX; rewrite H; reflexivity. Qed.

(** X3. With a receiver that has a world, the abort branch changes nothing and
    returns [true] exactly when the pair intersects with a nonzero overlap
    or both bodies are embedded. *)
Lemma SeparateX_aborted_in_world (r : Receiver) (w : World)
    (body1 body2 : Body.t) (overlapOnly : bool) (bias : R) :
  world r = Some w ->
  aborts (GetOverlapX body1 body2 overlapOnly bias) body1 body2 overlapOnly
  = true ->
  let collisionInfo := GetOverlapX body1 body2 overlapOnly bias in
  exists v,
    SeparateX (Some r) body1 body2 overlapOnly bias
    = mkOutcome body1 body2 (Return v)
    /\ (v = true <->
        (CollisionInfo.intersects collisionInfo = true
         /\ CollisionInfo.overlapY collisionInfo <> 0)
        \/ (Body.embedded body1 = true /\ Body.embedded body2 = true)).
Proof.
  intros Hw Ha collisionInfo.
  exists (abortValue collisionInfo body1 body2); split.
  - rewrite SeparateX_aborted by exact Ha; cbn; rewrite Hw; reflexivity.
  - unfold abortValue.
    rewrite orb_true_iff, !andb_true_iff, negb_true_iff, Reqb_false.
    tauto.
Qed.

(** C10. On every path into the abort branch (no intersection, or
    [overlapOnly], or both bodies immovable, or a body with
    [customSeparateX]) the call evaluates [this.world._frame]; without a
    receiver that has a world it throws instead of returning, and the bodies
    are left as they were. *)
Theorem abort_throws_without_world (this : option Receiver)
    (body1 body2 : Body.t) (overlapOnly : bool) (bias : R) :
  (this = None \/ exists r, this = Some r /\ world r = None) ->
  (CollisionInfo.intersects (GetOverlapX body1 body2 overlapOnly bias) = false
   \/ overlapOnly = true
   \/ (isImmovable body1 = true /\ isImmovable body2 = true)
   \/ Body.customSeparateX body1 = true
   \/ Body.customSeparateX body2 = true) ->
  SeparateX this body1 body2 overlapOnly bias
  = mkOutcome body1 body2 ThrowTypeError.
Proof.
  intros Hthis Habort.
  apply aborts_true_iff in Habort.
  rewrite SeparateX_aborted by exact Habort.
  rewrite this_world_frame_None by exact Hthis.
  reflexivity.
Qed.

(** C7, amended. When the probe reports no intersection and the receiver has
    a world, the call changes neither body and returns [true] exactly when
    both bodies are embedded. *)
Theorem apart_returns_embedded (r : Receiver) (w : World)
    (body1 body2 : Body.t) (overlapOnly : bool) (bias : R) :
  world r = Some w ->
  CollisionInfo.intersects (GetOverlapX body1 body2 overlapOnly bias) = false ->
  SeparateX (Some r) body1 body2 overlapOnly bias
  = mkOutcome body1 body2
      (Return (Body.embedded body1 && Body.embedded body2)).
Proof.
  intros Hw Hi.
  rewrite SeparateX_aborted by (apply aborts_true_iff; auto).
  cbn; rewrite Hw.
  unfold abortValue; rewrite Hi; reflexivity.
Qed.

End Abort.

(** ** Impact velocities *)

Section Impact.
Context {methods : BodyMethods} {probe : OverlapProbe}.

Lemma SeparateX_proceeds (this : option Receiver) (body1 body2 : Body.t)
    (overlapOnly : bool) (bias : R) :
  let collisionInfo := GetOverlapX body1 body2 overlapOnly bias in
  aborts collisionInfo body1 body2 overlapOnly = false ->
  degenerate collisionInfo = false ->
  SeparateX this body1 body2 overlapOnly bias
  = let r := beforeWake collisionInfo body1 body2 in
    let w1 := wakey (fst (fst r)) (snd (fst r)) in
    let w2 := wakey (fst (snd r)) (snd (snd r)) in
    mkOutcome (Body.with_velocity_x (snd w1) (fst w1))
      (Body.with_velocity_x (snd w2) (fst w2)) (Return true).
Proof. intros ci Ha Hd; unfold SeparateX; fold ci; rewrite Ha, Hd; reflexivity. Qed.

(** C8. Past the abort branch, with a nonzero overlap and both shares zero,
    the call sets both horizontal velocities to 0 and returns [true]; no
    other field of either body changes: position, blocked faces and
    sleeping flag are as before. *)
Theorem degenerate_contact_zeroes_velocities (this : option Receiver)
    (body1 body2 : Body.t) (overlapOnly : bool) (bias : R) :
  let collisionInfo := GetOverlapX body1 body2 overlapOnly bias in
  let after := SeparateX this body1 body2 overlapOnly bias in
  aborts collisionInfo body1 body2 overlapOnly = false ->
  CollisionInfo.overlapY collisionInfo <> 0 ->
  CollisionInfo.share1 collisionInfo = 0 ->
  CollisionInfo.share2 collisionInfo = 0 ->
  after = mkOutcome (Body.with_velocity_x 0 body1)
            (Body.with_velocity_x 0 body2) (Return true)
  /\ Vector2.x (Body.velocity (out1 after)) = 0
  /\ Vector2.x (Body.velocity (out2 after)) = 0
  /\ Body.x (out1 after) = Body.x body1 /\ Body.y (out1 after) = Body.y body1
  /\ Body.x (out2 after) = Body.x body2 /\ Body.y (out2 after) = Body.y body2
  /\ Body.blocked (out1 after) = Body.blocked body1
  /\ Body.blocked (out2 after) = Body.blocked body2
  /\ Body.sleeping (out1 after) = Body.sleeping body1
  /\ Body.sleeping (out2 after) = Body.sleeping body2.
Proof.
  intros collisionInfo after Ha Ho H1 H2.
  assert (Hd : degenerate collisionInfo = true).
  { unfold degenerate. rewrite H1, H2, Reqb_refl.
    apply Reqb_false in Ho. rewrite Ho. reflexivity. }
  assert (E : after = mkOutcome (Body.with_velocity_x 0 body1)
                        (Body.with_velocity_x 0 body2) (Return true)).
  { unfold after, SeparateX. fold collisionInfo. rewrite Ha, Hd. reflexivity. }
  rewrite E. cbn. repeat split; reflexivity.
Qed.



End Impact.

(** ** After the impact: damping, blocking and sleep only ever zero a velocity *)

Section Commit.
Context {methods : BodyMethods} {probe : OverlapProbe}.

Lemma flipFlop_keeps_or_zeroes (body : Body.t) (x nx : R) :
  flipFlop body x nx = nx \/ flipFlop body x nx = 0.
Proof. unfold flipFlop; match goal with |- context [if ?c then _ else _] => destruct c end; auto. Qed.

Lemma separate1_keeps_or_zeroes (collisionInfo : CollisionInfo.t)
    (leftFace : bool) (body1 body2 : Body.t) (nx1 : R) :
  snd (separate1 collisionInfo leftFace body1 body2 nx1) = nx1
  \/ snd (separate1 collisionInfo leftFace body1 body2 nx1) = 0.
Proof.
  unfold separate1.
  destruct (negb (Reqb nx1 0)).
  - match goal with |- context [if ?c then (_, 0) else _] => destruct c end;
      cbn; auto.
  - destruct (Body.moves body1); [|cbn; auto].
    destruct leftFace; cbn; auto.
Qed.

Lemma separate2_keeps_or_zeroes (collisionInfo : CollisionInfo.t)
    (leftFace : bool) (body1 body2 : Body.t) (nx2 : R) :
  snd (separate2 collisionInfo leftFace body1 body2 nx2) = nx2
  \/ snd (separate2 collisionInfo leftFace body1 body2 nx2) = 0.
Proof.
  unfold separate2.
  destruct (negb (Reqb nx2 0)).
  - match goal with |- context [if ?c then (_, 0) else _] => destruct c end;
      cbn; auto.
  - destruct (Body.moves body2); [|cbn; auto].
    destruct leftFace; cbn; auto.
Qed.

Lemma blockedX_keeps_or_zeroes (body : Body.t) (nx : R) :
  blockedX body nx = nx \/ blockedX body nx = 0.
Proof. unfold blockedX; destruct (isBlockedX body); auto. Qed.

Lemma wakey_keeps_or_zeroes (body : Body.t) (nx : R) :
  snd (wakey body nx) = nx \/ snd (wakey body nx) = 0.
Proof.
  unfold wakey; destruct (Body.sleeping body); [|cbn; auto].
  match goal with |- context [if ?c then _ else _] => destruct c end; cbn; auto.
Qed.

Lemma velocity_x_committed (v : R) (body : Body.t) :
  Vector2.x (Body.velocity (Body.with_velocity_x v body)) = v.
Proof. reflexivity. Qed.

(** Past the abort branch, the velocity committed to each body is the one
    computed by the impact, or 0. *)
Lemma SeparateX_commits_impact_or_zero (this : option Receiver)
    (body1 body2 : Body.t) (overlapOnly : bool) (bias : R) :
  let collisionInfo := GetOverlapX body1 body2 overlapOnly bias in
  let leftFace := Facing_eqb (CollisionInfo.face collisionInfo) FACING_LEFT in
  let after := SeparateX this body1 body2 overlapOnly bias in
  aborts collisionInfo body1 body2 overlapOnly = false ->
  (Vector2.x (Body.velocity (out1 after)) = fst (impact leftFace body1 body2)
   \/ Vector2.x (Body.velocity (out1 after)) = 0)
  /\ (Vector2.x (Body.velocity (out2 after)) = snd (impact leftFace body1 body2)
      \/ Vector2.x (Body.velocity (out2 after)) = 0).
Proof.
  intros collisionInfo leftFace after Ha.
  unfold after, SeparateX. fold collisionInfo. rewrite Ha.
  destruct (degenerate collisionInfo); [cbn; auto|].
  cbn [out1 out2]. rewrite !velocity_x_committed.
  unfold beforeWake. fold leftFace. cbn [fst snd].
  set (x1 := Vector2.x (Body.velocity body1)).
  set (x2 := Vector2.x (Body.velocity body2)).
  set (i1 := fst (impact leftFace body1 body2)).
  set (i2 := snd (impact leftFace body1 body2)).
  set (f1 := flipFlop body1 x1 i1).
  set (f2 := flipFlop body2 x2 i2).
  set (s1 := separate1 collisionInfo leftFace body1 body2 f1).
  set (s2 := separate2 collisionInfo leftFace (fst s1) body2 f2).
  split.
  - destruct (wakey_keeps_or_zeroes (fst s1) (blockedX (fst s1) (snd s1)))
      as [-> | ->]; auto.
    destruct (blockedX_keeps_or_zeroes (fst s1) (snd s1)) as [-> | ->]; auto.
    destruct (separate1_keeps_or_zeroes collisionInfo leftFace body1 body2 f1)
      as [E | E]; fold s1 in E; rewrite E; auto.
    destruct (flipFlop_keeps_or_zeroes body1 x1 i1) as [E' | E'];
      fold f1 in E'; rewrite E'; auto.
  - destruct (wakey_keeps_or_zeroes (fst s2) (blockedX (fst s2) (snd s2)))
      as [-> | ->]; auto.
    destruct (blockedX_keeps_or_zeroes (fst s2) (snd s2)) as [-> | ->]; auto.
    destruct (separate2_keeps_or_zeroes collisionInfo leftFace (fst s1) body2 f2)
      as [E | E]; fold s2 in E; rewrite E; auto.
    destruct (flipFlop_keeps_or_zeroes body2 x2 i2) as [E' | E'];
      fold f2 in E'; rewrite E'; auto.
Qed.

End Commit.

(** ** Rideable bodies, elastic pairs and the sleep step *)

Section Resolved.
Context {methods : BodyMethods} {probe : OverlapProbe}.



(** C5, amended. In every call that reaches the sleep step, a sleeping body
    is woken exactly when the magnitude of its velocity is at least its
    minimum velocity (equality wakes it), and then keeps that velocity;
    below the threshold its committed velocity is 0 and it stays asleep; a
    body that is not sleeping has its velocity committed unchanged and is
    otherwise untouched. *)
Theorem sleeping_body_wakes_at_threshold (laws : BodyMethodsLaws methods)
    (this : option Receiver) (body1 body2 : Body.t) (overlapOnly : bool)
    (bias : R) :
  let collisionInfo := GetOverlapX body1 body2 overlapOnly bias in
  let after := SeparateX this body1 body2 overlapOnly bias in
  aborts collisionInfo body1 body2 overlapOnly = false ->
  degenerate collisionInfo = false ->
  hysteresis (fst (beforeWake collisionInfo body1 body2)) (out1 after)
  /\ hysteresis (snd (beforeWake collisionInfo body1 body2)) (out2 after).
Proof.
  intros collisionInfo after Ha Hd.
  unfold after. rewrite SeparateX_proceeds by assumption.
  fold collisionInfo. cbn [out1 out2].
  assert (step : forall e : Body.t * R,
             hysteresis e
               (Body.with_velocity_x (snd (wakey (fst e) (snd e)))
                  (fst (wakey (fst e) (snd e))))).
  { intros [body nx]. unfold hysteresis, wakey. cbn [fst snd].
    destruct (Body.sleeping body) eqn:Hs.
    - split; [intros _ | discriminate].
      destruct (Rltb (Rabs nx) (Vector2.x (Body.minVelocity body))) eqn:Hlt.
      + apply Rltb_true in Hlt. cbn. rewrite Hs.
        repeat split; try lra; try discriminate; auto.
      + apply Rltb_false in Hlt. cbn.
        rewrite wake_sleeping.
        repeat split; try lra; auto.
    - split; [discriminate | reflexivity]. }
  split; apply step.
Qed.

End Resolved.

(** ** Running the resolver on sample calls *)

(** Unfolds the data, the sample values and the modelled methods, but none of
    the steps of the resolver. *)
Ltac run :=
  cbv beta iota zeta delta
    [exchange direction degenerate aborts abortValue isImmovable
     this_world_frame PhysicsType_eqb Facing_eqb nudge
     GetOverlapX movingX isBlockedLeft isBlockedRight isBlockedX getMoveX
     setBlockedLeft setBlockedRight wake
     SpecBody.methods SpecBody.reports SpecBody.movingX SpecBody.isBlockedLeft
     SpecBody.isBlockedRight SpecBody.isBlockedX SpecBody.getMoveX
     SpecBody.setBlockedLeft SpecBody.setBlockedRight SpecBody.wake
     Sample.noReceiver Sample.inWorld Sample.resting Sample.wall
     Sample.platform Sample.mover Sample.contact Sample.apart Sample.bouncer
     Sample.blockedLeft Sample.blockedRight Sample.embeddedBody
     Sample.resolve Sample.resolve1
     Vector2.x Vector2.y Vector2.with_x
     Blocked.left Blocked.right Blocked.none
     Body.id Body.x Body.y Body.velocity Body.bounce Body.minVelocity
     Body.mass Body.physicsType Body.immovable Body.customSeparateX
     Body.embedded Body.rideable Body.moves Body.sleeping Body.blocked
     Body.with_y Body.with_velocity_x Body.with_sleeping Body.with_blocked
     CollisionInfo.overlapY CollisionInfo.face CollisionInfo.intersects
     CollisionInfo.share1 CollisionInfo.share2
     world _frame out1 out2 completion fst snd andb orb negb].

(** Decides one numeric test of the goal. *)
Ltac decide_test :=
  match goal with
  | |- context [Rabs ?a] =>
      first [ rewrite (Rabs_pos_eq a) by lra | rewrite (Rabs_left a) by lra ]
  | |- context [Rltb ?a ?b] =>
      first [ rewrite (proj2 (Rltb_true a b)) by lra
            | rewrite (proj2 (Rltb_false a b)) by lra ]
  | |- context [Reqb ?a ?b] =>
      first [ rewrite (proj2 (Reqb_true a b)) by lra
            | rewrite (proj2 (Reqb_false a b)) by lra ]
  end.

Ltac tests := run; repeat (decide_test; run).

Ltac light := cbv beta iota zeta delta [fst snd].

(** Replaces the call [t] of a step by its value; [open] unfolds the step. *)
Ltac call t open :=
  let E := fresh "E" in
  eassert (E : t = _) by (open; tests; reflexivity);
  rewrite E; clear E; light.

(** Runs a call of [SeparateX] step by step, in the order of the source, and
    then reads the fields of the outcome. *)
Ltac evaluate :=
  try unfold Sample.resolve; try unfold Sample.resolve1;
  try unfold SeparateX; light;
  repeat match goal with
    | |- context [@GetOverlapX ?p ?a ?b ?c ?d] =>
        call (@GetOverlapX p a b c d) idtac
    end;
  repeat match goal with
    | |- context [aborts ?a ?b ?c ?d] => call (aborts a b c d) idtac
    end;
  repeat match goal with
    | |- context [this_world_frame ?a] => call (this_world_frame a) idtac
    end;
  repeat match goal with
    | |- context [degenerate ?a] => call (degenerate a) idtac
    end;
  try unfold beforeWake; light;
  repeat match goal with
    | |- context [@impact ?m ?a ?b ?c] =>
        call (@impact m a b c) ltac:(unfold impact)
    end;
  repeat match goal with
    | |- context [flipFlop ?a ?b ?c] =>
        call (flipFlop a b c) ltac:(unfold flipFlop)
    end;
  repeat match goal with
    | |- context [@separate1 ?m ?a ?b ?c ?d ?e] =>
        call (@separate1 m a b c d e) ltac:(unfold separate1)
    end;
  repeat match goal with
    | |- context [@separate2 ?m ?a ?b ?c ?d ?e] =>
        call (@separate2 m a b c d e) ltac:(unfold separate2)
    end;
  repeat match goal with
    | |- context [@blockedX ?m ?a ?b] =>
        call (@blockedX m a b) ltac:(unfold blockedX)
    end;
  repeat match goal with
    | |- context [@wakey ?m ?a ?b] => call (@wakey m a b) ltac:(unfold wakey)
    end;
  tests.

(** ** The methods of the specification satisfy its laws *)

Lemma SpecBody_laws : BodyMethodsLaws SpecBody.methods.
Proof. split; reflexivity. Qed.

(** ** The translation is written to the wrong coordinate *)

Section MovesY.
Context {methods : BodyMethods}.

(** Whenever the velocity of the first body is nonzero and the second body
    is not blocked on the tested face, [separate1] adds the share to [y] and
    touches nothing else; [x], the coordinate of the axis, is never
    written. *)
Lemma separate1_translates_y (collisionInfo : CollisionInfo.t)
    (body1 body2 : Body.t) (nx1 : R) :
  let leftFace := Facing_eqb (CollisionInfo.face collisionInfo) FACING_LEFT in
  nx1 <> 0 ->
  (if leftFace then isBlockedLeft body2 else isBlockedRight body2) = false ->
  fst (separate1 collisionInfo leftFace body1 body2 nx1)
  = Body.with_y
      (Body.y body1 + getMoveX body1 (CollisionInfo.share1 collisionInfo))
      body1.
Proof.
  intros leftFace Hnx Hb. unfold separate1.
  apply Reqb_false in Hnx. rewrite Hnx. cbn [negb].
  destruct leftFace; cbn [negb]; rewrite Hb;
    match goal with |- context [if ?c then (_, 0) else _] => destruct c end;
    reflexivity.
Qed.

Lemma separate2_translates_y (collisionInfo : CollisionInfo.t)
    (body1 body2 : Body.t) (nx2 : R) :
  let leftFace := Facing_eqb (CollisionInfo.face collisionInfo) FACING_LEFT in
  nx2 <> 0 ->
  (if leftFace then isBlockedRight body1 else isBlockedLeft body1) = false ->
  fst (separate2 collisionInfo leftFace body1 body2 nx2)
  = Body.with_y
      (Body.y body2 + getMoveX body2 (CollisionInfo.share2 collisionInfo))
      body2.
Proof.
  intros leftFace Hnx Hb. unfold separate2.
  apply Reqb_false in Hnx. rewrite Hnx. cbn [negb].
  destruct leftFace; cbn [negb]; rewrite Hb;
    match goal with |- context [if ?c then (_, 0) else _] => destruct c end;
    reflexivity.
Qed.

Lemma separate1_keeps_x (laws : BodyMethodsLaws methods)
    (collisionInfo : CollisionInfo.t) (leftFace : bool)
    (body1 body2 : Body.t) (nx1 : R) :
  Body.x (fst (separate1 collisionInfo leftFace body1 body2 nx1))
  = Body.x body1.
Proof.
  unfold separate1. cbv zeta.
  repeat match goal with
    | |- context [if ?c then _ else _] => destruct c
    end;
    cbn [fst Body.x Body.with_y];
    rewrite ?setBlockedLeft_x, ?setBlockedRight_x; reflexivity.
Qed.

Lemma separate2_keeps_x (laws : BodyMethodsLaws methods)
    (collisionInfo : CollisionInfo.t) (leftFace : bool)
    (body1 body2 : Body.t) (nx2 : R) :
  Body.x (fst (separate2 collisionInfo leftFace body1 body2 nx2))
  = Body.x body2.
Proof.
  unfold separate2. cbv zeta.
  repeat match goal with
    | |- context [if ?c then _ else _] => destruct c
    end;
    cbn [fst Body.x Body.with_y];
    rewrite ?setBlockedLeft_x, ?setBlockedRight_x; reflexivity.
Qed.

Lemma wakey_keeps_x (laws : BodyMethodsLaws methods) (body : Body.t) (nx : R) :
  Body.x (fst (wakey body nx)) = Body.x body.
Proof.
  unfold wakey.
  repeat match goal with
    | |- context [if ?c then _ else _] => destruct c
    end;
    cbn [fst]; rewrite ?wake_x; reflexivity.
Qed.

(** X4. No call writes the [x] coordinate of either body. *)
Lemma SeparateX_never_writes_x {probe : OverlapProbe}
    (laws : BodyMethodsLaws methods) (this : option Receiver)
    (body1 body2 : Body.t) (overlapOnly : bool) (bias : R) :
  let after := SeparateX this body1 body2 overlapOnly bias in
  Body.x (out1 after) = Body.x body1 /\ Body.x (out2 after) = Body.x body2.
Proof.
  unfold SeparateX.
  destruct (aborts _ _ _ _).
  { destruct (this_world_frame this); split; reflexivity. }
  destruct (degenerate _); [split; reflexivity|].
  unfold beforeWake.
  cbv beta zeta. unfold Body.with_velocity_x. cbn [out1 out2 fst snd Body.x].
  split.
  - rewrite (wakey_keeps_x laws). apply (separate1_keeps_x laws).
  - rewrite (wakey_keeps_x laws). apply (separate2_keeps_x laws).
Qed.

End MovesY.

(** ** Sample calls *)

Section Calls.
Import Sample.

(** C1. A body moving left at 3 bounces off a wall on its left with share 2:
    its velocity after the impact is 3 and the wall is not blocked, so the
    specification has it translated along x, from 10 to 12, with y left at
    20. The code leaves x at 10 and moves y to 22. *)
Theorem bounce_off_wall_translates_y :
  let after :=
    resolve (contact FACING_LEFT 2 2 0) inWorld bouncer (wall 2 0 20) false 0 in
  completion after = Return true
  /\ Vector2.x (Body.velocity (out1 after)) = 3
  /\ Body.x (out1 after) = 10
  /\ Body.y (out1 after) = 22
  /\ Body.x (out1 after) <> Body.x bouncer + 2
  /\ Body.y (out1 after) <> Body.y bouncer.
Proof.
  evaluate. repeat split; try reflexivity; lra.
Qed.

(** C2. A call with [overlapOnly] set on an intersecting pair, made without
    a receiver: the specification has it return [true]; the code throws at
    [this.world._frame]. *)
Theorem overlap_only_call_throws :
  resolve (contact FACING_LEFT 2 1 1) noReceiver (resting 1 10 0)
    (resting 2 0 0) true 0
  = mkOutcome (resting 1 10 0) (resting 2 0 0) ThrowTypeError.
Proof.
  evaluate. reflexivity.
Qed.

(** C3. The two contact faces are not handled as mirror images for the
    first body. At rest with share 2: on the left face, blocked on its
    right, it is not translated; in the mirrored call, on the right face
    and blocked on its left, it is translated all the same, because the
    right-face branch tests the right side again. The second body is
    handled as mirror images: in both calls it stays where it is. And a
    body that is not sleeping loses a positive velocity when blocked on its
    right, but keeps a negative one when blocked on its left. *)
Theorem faces_not_mirrored_for_body1 :
  Body.y (out1 (resolve (contact FACING_LEFT 2 2 0) inWorld
                  (blockedRight (resting 1 10 0)) (wall 2 0 0) false 0)) = 0
  /\ Body.y (out1 (resolve (contact FACING_RIGHT 2 2 0) inWorld
                     (blockedLeft (resting 1 0 0)) (wall 2 10 0) false 0)) = 2
  /\ Body.y (out2 (resolve (contact FACING_LEFT 2 0 2) inWorld
                     (wall 1 10 0) (blockedRight (resting 2 0 0)) false 0)) = 0
  /\ Body.y (out2 (resolve (contact FACING_RIGHT 2 0 2) inWorld
                     (wall 1 0 0) (blockedLeft (resting 2 10 0)) false 0)) = 0
  /\ snd (resolve1 (contact FACING_LEFT 2 2 0)
            (blockedRight (resting 1 10 0)) (wall 2 0 0) 3) = 0
  /\ snd (resolve1 (contact FACING_RIGHT 2 2 0)
            (blockedLeft (resting 1 0 0)) (wall 2 10 0) (-3)) = -3.
Proof.
  repeat split.
  - evaluate. reflexivity.
  - evaluate. lra.
  - evaluate. reflexivity.
  - evaluate. reflexivity.
  - evaluate. reflexivity.
  - evaluate. reflexivity.
Qed.

(** C5 as stated fails: a sleeping body whose velocity after the impact has
    magnitude 1, equal to its minimum velocity 1, is woken. *)
Lemma wakes_at_equal_threshold :
  ~ @stated_wakes_iff_exceeds SpecBody.methods
      (SpecBody.reports (contact FACING_LEFT 2 1 1)) inWorld
      (mover 1 10 0 (-1) 1 1 1 true) (mover 2 0 0 1 1 0 1 false) false 0.
Proof.
  unfold stated_wakes_iff_exceeds. evaluate.
  intros H. destruct (H eq_refl eq_refl eq_refl) as [H1 _].
  specialize (H1 eq_refl). lra.
Qed.

(** C5, amended, at that call: the first body, asleep with threshold 1 and
    velocity 1, is woken and keeps its velocity. *)
Lemma sleeping_body_wakes_at_threshold_witness :
  let after :=
    resolve (contact FACING_LEFT 2 1 1) inWorld
      (mover 1 10 0 (-1) 1 1 1 true) (mover 2 0 0 1 1 0 1 false) false 0 in
  hysteresis
    (fst (@beforeWake SpecBody.methods (contact FACING_LEFT 2 1 1)
            (mover 1 10 0 (-1) 1 1 1 true) (mover 2 0 0 1 1 0 1 false)))
    (out1 after)
  /\ hysteresis
       (snd (@beforeWake SpecBody.methods (contact FACING_LEFT 2 1 1)
               (mover 1 10 0 (-1) 1 1 1 true) (mover 2 0 0 1 1 0 1 false)))
       (out2 after).
Proof.
  apply (@sleeping_body_wakes_at_threshold SpecBody.methods
           (SpecBody.reports (contact FACING_LEFT 2 1 1)) SpecBody_laws inWorld
           (mover 1 10 0 (-1) 1 1 1 true) (mover 2 0 0 1 1 0 1 false) false 0).
  - reflexivity.
  - tests. reflexivity.
Defined.


(** C7 as stated fails: for two embedded bodies that do not intersect the
    call returns [true]. *)
Lemma apart_embedded_returns_true :
  ~ @stated_apart_returns_false SpecBody.methods (SpecBody.reports apart)
      inWorld (embeddedBody 1) (embeddedBody 2) false 0.
Proof.
  unfold stated_apart_returns_false. evaluate.
  intros H. specialize (H eq_refl). discriminate H.
Qed.

(** C7, amended, at that call and at a pair that is not embedded. *)
Lemma apart_returns_embedded_witness :
  resolve apart inWorld (embeddedBody 1) (embeddedBody 2) false 0
  = mkOutcome (embeddedBody 1) (embeddedBody 2) (Return true)
  /\ resolve apart inWorld (resting 1 0 0) (resting 2 5 0) false 0
     = mkOutcome (resting 1 0 0) (resting 2 5 0) (Return false).
Proof.
  split.
  - apply (@apart_returns_embedded SpecBody.methods (SpecBody.reports apart)
             (mkReceiver (Some (mkWorld 7))) (mkWorld 7)); reflexivity.
  - apply (@apart_returns_embedded SpecBody.methods (SpecBody.reports apart)
             (mkReceiver (Some (mkWorld 7))) (mkWorld 7)); reflexivity.
Defined.

(** C8 at a resting body embedded in a wall with no share for either. *)
Lemma degenerate_contact_zeroes_velocities_witness :
  resolve (contact FACING_LEFT 2 0 0) inWorld
    (mover 1 10 0 (-3) 1 0 1 false) (wall 2 0 0) false 0
  = mkOutcome (Body.with_velocity_x 0 (mover 1 10 0 (-3) 1 0 1 false))
      (Body.with_velocity_x 0 (wall 2 0 0)) (Return true).
Proof.
  apply (@degenerate_contact_zeroes_velocities SpecBody.methods
           (SpecBody.reports (contact FACING_LEFT 2 0 0)) inWorld
           (mover 1 10 0 (-3) 1 0 1 false) (wall 2 0 0) false 0).
  - reflexivity.
  - run. lra.
  - reflexivity.
  - reflexivity.
Defined.


(** C10 at a pair that does not intersect, called without a receiver. *)
Lemma abort_throws_without_world_witness :
  resolve apart noReceiver (resting 1 0 0) (resting 2 5 0) false 0
  = mkOutcome (resting 1 0 0) (resting 2 5 0) ThrowTypeError.
Proof.
  apply (@abort_throws_without_world SpecBody.methods (SpecBody.reports apart)
           noReceiver (resting 1 0 0) (resting 2 5 0) false 0).
  - left. reflexivity.
  - left. reflexivity.
Defined.

End Calls.

(** * Further properties of the resolver *)

(** ** How a call ends *)

Section Ends.
Context {methods : BodyMethods} {probe : OverlapProbe}.

(** X1. A call throws exactly when it takes the abort branch on a receiver
    without a world; a call that throws leaves both bodies as they were, and
    every call that does not abort returns [true]. *)
Theorem SeparateX_throws_iff (this : option Receiver) (body1 body2 : Body.t)
    (overlapOnly : bool) (bias : R) :
  let collisionInfo := GetOverlapX body1 body2 overlapOnly bias in
  let after := SeparateX this body1 body2 overlapOnly bias in
  (completion after = ThrowTypeError <->
   aborts collisionInfo body1 body2 overlapOnly = true
   /\ this_world_frame this = None)
  /\ (completion after = ThrowTypeError ->
      out1 after = body1 /\ out2 after = body2)
  /\ (aborts collisionInfo body1 body2 overlapOnly = false ->
      completion after = Return true).
Proof.
  intros collisionInfo after. unfold after, SeparateX. fold collisionInfo.
  destruct (aborts collisionInfo body1 body2 overlapOnly).
  - destruct (this_world_frame this); cbn; intuition congruence.
  - destruct (degenerate collisionInfo); cbn; intuition congruence.
Qed.

(** X2. A call that returns [false] has changed neither body: it took the abort
    branch, and the pair neither intersects with a nonzero overlap nor is
    embedded. *)
Theorem false_result_leaves_bodies (this : option Receiver)
    (body1 body2 : Body.t) (overlapOnly : bool) (bias : R) :
  let collisionInfo := GetOverlapX body1 body2 overlapOnly bias in
  let after := SeparateX this body1 body2 overlapOnly bias in
  completion after = Return false ->
  out1 after = body1 /\ out2 after = body2
  /\ aborts collisionInfo body1 body2 overlapOnly = true
  /\ (CollisionInfo.intersects collisionInfo = false
      \/ CollisionInfo.overlapY collisionInfo = 0)
  /\ (Body.embedded body1 = false \/ Body.embedded body2 = false).
Proof.
  intros collisionInfo after. unfold after, SeparateX. fold collisionInfo.
  destruct (aborts collisionInfo body1 body2 overlapOnly).
  - destruct (this_world_frame this); cbn; [|discriminate].
    intros H. injection H as H. unfold abortValue in H.
    apply orb_false_iff in H. destruct H as [H1 H2].
    apply andb_false_iff in H1. apply andb_false_iff in H2.
    repeat split; try tauto.
    destruct H1 as [H1 | H1]; [left; exact H1 | right].
    apply negb_false_iff, Reqb_true in H1. exact H1.
  - destruct (degenerate collisionInfo); cbn; discriminate.
Qed.

End Ends.

(** ** What a call does to positions and velocities *)

Section Moves.
Context {methods : BodyMethods} {probe : OverlapProbe}.

Lemma separate1_y (frame : BodyMethodsFrame methods)
    (collisionInfo : CollisionInfo.t) (leftFace : bool)
    (body1 body2 : Body.t) (nx1 : R) :
  let moved := fst (separate1 collisionInfo leftFace body1 body2 nx1) in
  Body.y moved = Body.y body1
  \/ Body.y moved
     = Body.y body1 + getMoveX body1 (CollisionInfo.share1 collisionInfo).
Proof.
  unfold separate1. cbv zeta.
  repeat match goal with
    | |- context [if ?c then _ else _] => destruct c
    end;
    cbn [fst]; rewrite ?setBlockedLeft_y, ?setBlockedRight_y;
    cbn [Body.y Body.with_y]; auto.
Qed.

Lemma separate2_y (frame : BodyMethodsFrame methods)
    (collisionInfo : CollisionInfo.t) (leftFace : bool)
    (body1 body2 : Body.t) (nx2 : R) :
  let moved := fst (separate2 collisionInfo leftFace body1 body2 nx2) in
  Body.y moved = Body.y body2
  \/ Body.y moved
     = Body.y body2 + getMoveX body2 (CollisionInfo.share2 collisionInfo).
Proof.
  unfold separate2. cbv zeta.
  repeat match goal with
    | |- context [if ?c then _ else _] => destruct c
    end;
    cbn [fst]; rewrite ?setBlockedLeft_y, ?setBlockedRight_y;
    cbn [Body.y Body.with_y]; auto.
Qed.

Lemma wakey_y (frame : BodyMethodsFrame methods) (body : Body.t) (nx : R) :
  Body.y (fst (wakey body nx)) = Body.y body.
Proof.
  unfold wakey.
  repeat match goal with
    | |- context [if ?c then _ else _] => destruct c
    end;
    cbn [fst]; rewrite ?wake_y; reflexivity.
Qed.

(** X5. In every call each body's [y] is either left alone or moved once, by
    what [getMoveX] makes of that body's own share: the two corrections are
    never added up, and no body receives the other body's share. *)
Theorem SeparateX_moves_y_by_own_share (frame : BodyMethodsFrame methods)
    (this : option Receiver) (body1 body2 : Body.t) (overlapOnly : bool)
    (bias : R) :
  let collisionInfo := GetOverlapX body1 body2 overlapOnly bias in
  let after := SeparateX this body1 body2 overlapOnly bias in
  (Body.y (out1 after) = Body.y body1
   \/ Body.y (out1 after)
      = Body.y body1 + getMoveX body1 (CollisionInfo.share1 collisionInfo))
  /\ (Body.y (out2 after) = Body.y body2
      \/ Body.y (out2 after)
         = Body.y body2 + getMoveX body2 (CollisionInfo.share2 collisionInfo)).
Proof.
  intros collisionInfo after. unfold after, SeparateX. fold collisionInfo.
  destruct (aborts _ _ _ _).
  { destruct (this_world_frame this); split; left; reflexivity. }
  destruct (degenerate _); [split; left; reflexivity|].
  unfold beforeWake.
  cbv beta zeta. unfold Body.with_velocity_x. cbn [out1 out2 fst snd Body.y].
  rewrite !(wakey_y frame). split.
  - apply (separate1_y frame).
  - apply (separate2_y frame).
Qed.

(** Past the abort branch, the velocity committed to each body is the one
    left by flip-flop damping, or 0. *)
Lemma SeparateX_commits_damped_or_zero (this : option Receiver)
    (body1 body2 : Body.t) (overlapOnly : bool) (bias : R) :
  let collisionInfo := GetOverlapX body1 body2 overlapOnly bias in
  let leftFace := Facing_eqb (CollisionInfo.face collisionInfo) FACING_LEFT in
  let after := SeparateX this body1 body2 overlapOnly bias in
  aborts collisionInfo body1 body2 overlapOnly = false ->
  (Vector2.x (Body.velocity (out1 after))
   = flipFlop body1 (Vector2.x (Body.velocity body1))
       (fst (impact leftFace body1 body2))
   \/ Vector2.x (Body.velocity (out1 after)) = 0)
  /\ (Vector2.x (Body.velocity (out2 after))
      = flipFlop body2 (Vector2.x (Body.velocity body2))
          (snd (impact leftFace body1 body2))
      \/ Vector2.x (Body.velocity (out2 after)) = 0).
Proof.
  intros collisionInfo leftFace after Ha.
  unfold after, SeparateX. fold collisionInfo. rewrite Ha.
  destruct (degenerate collisionInfo); [cbn; auto|].
  cbn [out1 out2]. rewrite !velocity_x_committed.
  unfold beforeWake. fold leftFace. cbn [fst snd].
  set (f1 := flipFlop body1 _ _).
  set (f2 := flipFlop body2 _ _).
  set (s1 := separate1 collisionInfo leftFace body1 body2 f1).
  set (s2 := separate2 collisionInfo leftFace (fst s1) body2 f2).
  split.
  - destruct (wakey_keeps_or_zeroes (fst s1) (blockedX (fst s1) (snd s1)))
      as [-> | ->]; auto.
    destruct (blockedX_keeps_or_zeroes (fst s1) (snd s1)) as [-> | ->]; auto.
    destruct (separate1_keeps_or_zeroes collisionInfo leftFace body1 body2 f1)
      as [E | E]; fold s1 in E; rewrite E; auto.
  - destruct (wakey_keeps_or_zeroes (fst s2) (blockedX (fst s2) (snd s2)))
      as [-> | ->]; auto.
    destruct (blockedX_keeps_or_zeroes (fst s2) (snd s2)) as [-> | ->]; auto.
    destruct (separate2_keeps_or_zeroes collisionInfo leftFace (fst s1) body2 f2)
      as [E | E]; fold s2 in E; rewrite E; auto.
Qed.

Lemma flipFlop_reversed (body : Body.t) (x v : R) :
  Body.sleeping body = false ->
  flipFlop body x v <> 0 ->
  (x < 0 /\ 0 < flipFlop body x v) \/ (0 < x /\ flipFlop body x v < 0) ->
  Vector2.x (Body.minVelocity body) <= Rabs (flipFlop body x v).
Proof.
  intros Hs. unfold flipFlop. rewrite Hs. cbn [negb andb].
  destruct ((Rltb x 0 && Rltb 0 v) || (Rltb 0 x && Rltb v 0)) eqn:Hflip.
  - destruct (Rltb (Rabs v) (Vector2.x (Body.minVelocity body))) eqn:Hlt;
      cbn [andb].
    + intros H; contradiction H; reflexivity.
    + intros _ _. apply Rltb_false in Hlt. lra.
  - cbn [andb]. intros _ Hrev. exfalso.
    apply orb_false_iff in Hflip. destruct Hflip as [F1 F2].
    apply andb_false_iff in F1. apply andb_false_iff in F2.
    rewrite !Rltb_false in F1, F2. lra.
Qed.

(** X6. Flip-flop guard. Past the abort branch, a body that was not sleeping is
    never left with a velocity that reversed its sign and is smaller in
    magnitude than its minimum velocity. *)
Theorem reversed_velocity_reaches_threshold (this : option Receiver)
    (body1 body2 : Body.t) (overlapOnly : bool) (bias : R) :
  let collisionInfo := GetOverlapX body1 body2 overlapOnly bias in
  let after := SeparateX this body1 body2 overlapOnly bias in
  let reversed (before now : R) :=
    (before < 0 /\ 0 < now) \/ (0 < before /\ now < 0) in
  aborts collisionInfo body1 body2 overlapOnly = false ->
  (Body.sleeping body1 = false ->
   reversed (Vector2.x (Body.velocity body1))
     (Vector2.x (Body.velocity (out1 after))) ->
   Vector2.x (Body.minVelocity body1)
   <= Rabs (Vector2.x (Body.velocity (out1 after))))
  /\ (Body.sleeping body2 = false ->
      reversed (Vector2.x (Body.velocity body2))
        (Vector2.x (Body.velocity (out2 after))) ->
      Vector2.x (Body.minVelocity body2)
      <= Rabs (Vector2.x (Body.velocity (out2 after)))).
Proof.
  intros collisionInfo after reversed Ha.
  destruct (SeparateX_commits_damped_or_zero this body1 body2 overlapOnly bias
              Ha) as [V1 V2].
  fold collisionInfo after in V1, V2. unfold reversed.
  split; intros Hs Hrev.
  - destruct V1 as [V1 | V1]; [|rewrite V1 in Hrev; lra].
    rewrite V1 in Hrev |- *. apply flipFlop_reversed; auto. lra.
  - destruct V2 as [V2 | V2]; [|rewrite V2 in Hrev; lra].
    rewrite V2 in Hrev |- *. apply flipFlop_reversed; auto. lra.
Qed.

(** X7. When neither body is moving, a call that does not abort leaves both
    with velocity 0, whatever velocity they had. *)
Theorem pair_at_rest_stops (this : option Receiver) (body1 body2 : Body.t)
    (overlapOnly : bool) (bias : R) :
  let collisionInfo := GetOverlapX body1 body2 overlapOnly bias in
  let after := SeparateX this body1 body2 overlapOnly bias in
  aborts collisionInfo body1 body2 overlapOnly = false ->
  movingX body1 = false -> movingX body2 = false ->
  Vector2.x (Body.velocity (out1 after)) = 0
  /\ Vector2.x (Body.velocity (out2 after)) = 0.
Proof.
  intros collisionInfo after Ha M1 M2.
  destruct (SeparateX_commits_impact_or_zero this body1 body2 overlapOnly bias
              Ha) as [V1 V2].
  fold collisionInfo after in V1, V2.
  unfold impact in V1, V2. rewrite M1, M2 in V1, V2. cbn in V1, V2.
  split; tauto.
Qed.

End Moves.

(** ** Blocked bodies, bodies outside physics control and obstacles *)

Section Obstacles.
Context {methods : BodyMethods} {probe : OverlapProbe}.

Lemma wakey_isBlockedX (frame : BodyMethodsFrame methods) (body : Body.t)
    (nx : R) :
  isBlockedX (fst (wakey body nx)) = isBlockedX body.
Proof.
  unfold wakey.
  repeat match goal with
    | |- context [if ?c then _ else _] => destruct c
    end;
    cbn [fst]; rewrite ?isBlockedX_wake; reflexivity.
Qed.

Lemma wakey_zero (body : Body.t) : snd (wakey body 0) = 0.
Proof. destruct (wakey_keeps_or_zeroes body 0); assumption. Qed.

(** X8. Past the abort branch, a body that the call leaves blocked along the
    axis is left with velocity 0. *)
Theorem blocked_body_is_stopped (frame : BodyMethodsFrame methods)
    (this : option Receiver) (body1 body2 : Body.t) (overlapOnly : bool)
    (bias : R) :
  let collisionInfo := GetOverlapX body1 body2 overlapOnly bias in
  let after := SeparateX this body1 body2 overlapOnly bias in
  aborts collisionInfo body1 body2 overlapOnly = false ->
  (isBlockedX (out1 after) = true ->
   Vector2.x (Body.velocity (out1 after)) = 0)
  /\ (isBlockedX (out2 after) = true ->
      Vector2.x (Body.velocity (out2 after)) = 0).
Proof.
  intros collisionInfo after Ha.
  unfold after, SeparateX. fold collisionInfo. rewrite Ha.
  destruct (degenerate collisionInfo); [cbn; auto|].
  cbn [out1 out2]. rewrite !velocity_x_committed, !isBlockedX_velocity.
  rewrite !(wakey_isBlockedX frame).
  unfold beforeWake. cbn [fst snd]. unfold blockedX.
  split; intros Hb; rewrite Hb; apply wakey_zero.
Qed.

Lemma velocity_x_same (body : Body.t) :
  Body.with_velocity_x (Vector2.x (Body.velocity body)) body = body.
Proof. destruct body as [? ? ? [? ?] ? ? ? ? ? ? ? ? ? ? ?]; reflexivity. Qed.

Lemma flipFlop_zero (body : Body.t) (x : R) : flipFlop body x 0 = 0.
Proof.
  unfold flipFlop.
  match goal with |- context [if ?c then _ else _] => destruct c end;
    reflexivity.
Qed.

(** X9. Past the abort branch, a body with velocity 0 that is not moving, not
    under physics control and not sleeping comes out of the call exactly as
    it went in: an obstacle at rest is never touched. *)
Theorem obstacle_at_rest_untouched (this : option Receiver)
    (body1 body2 : Body.t) (overlapOnly : bool) (bias : R) :
  let collisionInfo := GetOverlapX body1 body2 overlapOnly bias in
  let after := SeparateX this body1 body2 overlapOnly bias in
  let atRest (body : Body.t) :=
    movingX body = false /\ Vector2.x (Body.velocity body) = 0
    /\ Body.moves body = false /\ Body.sleeping body = false in
  aborts collisionInfo body1 body2 overlapOnly = false ->
  (atRest body1 -> out1 after = body1)
  /\ (atRest body2 -> out2 after = body2).
Proof.
  intros collisionInfo after atRest Ha.
  unfold after, SeparateX. fold collisionInfo. rewrite Ha.
  split; intros (Hm & Hv & Hp & Hs).
  - destruct (degenerate collisionInfo); cbn [out1].
    { rewrite <- Hv. apply velocity_x_same. }
    unfold beforeWake. cbn [fst snd].
    assert (I : fst (impact (Facing_eqb (CollisionInfo.face collisionInfo)
                                FACING_LEFT) body1 body2) = 0).
    { unfold impact. rewrite Hm. cbn [andb negb].
      destruct (movingX body2); cbn [fst]; [exact Hv | reflexivity]. }
    rewrite I, flipFlop_zero.
    assert (S1 : forall lf, separate1 collisionInfo lf body1 body2 0
                            = (body1, 0)).
    { intros lf. unfold separate1. rewrite Reqb_refl, Hp. reflexivity. }
    rewrite S1. cbn [fst snd].
    assert (B : blockedX body1 0 = 0)
      by (unfold blockedX; destruct (isBlockedX body1); reflexivity).
    rewrite B. unfold wakey. rewrite Hs. cbn [fst snd].
    rewrite <- Hv at 1. apply velocity_x_same.
  - destruct (degenerate collisionInfo); cbn [out2].
    { rewrite <- Hv. apply velocity_x_same. }
    unfold beforeWake. cbn [fst snd].
    assert (I : snd (impact (Facing_eqb (CollisionInfo.face collisionInfo)
                                FACING_LEFT) body1 body2) = 0).
    { unfold impact. rewrite Hm. rewrite !andb_false_r. cbn [negb].
      destruct (movingX body1); cbn [andb snd]; [exact Hv | reflexivity]. }
    rewrite I, flipFlop_zero.
    assert (S2 : forall lf b, separate2 collisionInfo lf b body2 0
                              = (body2, 0)).
    { intros lf b. unfold separate2. rewrite Reqb_refl, Hp. reflexivity. }
    rewrite S2. cbn [fst snd].
    assert (B : blockedX body2 0 = 0)
      by (unfold blockedX; destruct (isBlockedX body2); reflexivity).
    rewrite B. unfold wakey. rewrite Hs. cbn [fst snd].
    rewrite <- Hv at 1. apply velocity_x_same.
Qed.

(** X10. A body that runs into a body which is not moving, not rideable and has
    velocity 0 never keeps heading the way it came: with a bounce that is
    not negative, its velocity after the call is 0 or opposite to the one
    before, and with a bounce of at most 1 it is no faster than before. *)
Theorem mover_turns_back_at_obstacle (this : option Receiver)
    (body1 body2 : Body.t) (overlapOnly : bool) (bias : R) :
  let collisionInfo := GetOverlapX body1 body2 overlapOnly bias in
  let after := SeparateX this body1 body2 overlapOnly bias in
  let obstacle (body : Body.t) :=
    movingX body = false /\ Body.rideable body = false
    /\ Vector2.x (Body.velocity body) = 0 in
  let turned (before now bounce : R) :=
    before * now <= 0 /\ (bounce <= 1 -> Rabs now <= Rabs before) in
  aborts collisionInfo body1 body2 overlapOnly = false ->
  (movingX body1 = true -> obstacle body2 ->
   0 <= Vector2.x (Body.bounce body1) ->
   turned (Vector2.x (Body.velocity body1))
     (Vector2.x (Body.velocity (out1 after))) (Vector2.x (Body.bounce body1)))
  /\ (movingX body2 = true -> obstacle body1 ->
      0 <= Vector2.x (Body.bounce body2) ->
      turned (Vector2.x (Body.velocity body2))
        (Vector2.x (Body.velocity (out2 after)))
        (Vector2.x (Body.bounce body2))).
Proof.
  intros collisionInfo after obstacle turned Ha.
  destruct (SeparateX_commits_impact_or_zero this body1 body2 overlapOnly bias
              Ha) as [V1 V2].
  fold collisionInfo after in V1, V2.
  assert (T : forall x b, 0 <= b -> turned x (0 - x * b) b).
  { intros x b Hb. unfold turned. split; [nra|].
    intros Hb1. replace (0 - x * b) with (- (x * b)) by lra.
    rewrite Rabs_Ropp, Rabs_mult, (Rabs_pos_eq b) by lra.
    pose proof (Rabs_pos x). nra. }
  assert (Z : forall x b, turned x 0 b).
  { intros x b. unfold turned. split; [lra|].
    intros _. rewrite Rabs_R0. apply Rabs_pos. }
  split; intros Hm (Ho & Hr & Hv) Hb.
  - unfold impact in V1. rewrite Hm, Ho, Hr, Hv in V1. cbn in V1.
    destruct V1 as [-> | ->]; auto.
  - unfold impact in V2. rewrite Hm, Ho, Hr, Hv in V2. cbn in V2.
    destruct V2 as [-> | ->]; auto.
Qed.

End Obstacles.

(** ** The arithmetic of the impact *)

Section ImpactAlgebra.
Context {methods : BodyMethods}.

Lemma Reqb_sym (a b : R) : Reqb a b = Reqb b a.
Proof.
  destruct (Reqb b a) eqn:E.
  - apply Reqb_true in E. apply Reqb_true. auto.
  - apply Reqb_false in E. apply Reqb_false. auto.
Qed.

(** X11. The impact does not prefer either body: with the two bodies exchanged
    it computes the same two velocities, exchanged. *)
Theorem impact_exchanges_with_bodies (leftFace : bool) (body1 body2 : Body.t) :
  impact leftFace body2 body1
  = (snd (impact leftFace body1 body2), fst (impact leftFace body1 body2)).
Proof.
  unfold impact, exchange.
  rewrite (Reqb_sym (Body.mass body2) (Body.mass body1)).
  destruct (movingX body1), (movingX body2); cbn [andb negb fst snd];
    try reflexivity.
  destruct (Reqb (Body.mass body1) (Body.mass body2));
    cbn [fst snd]; f_equal; ring.
Qed.

End ImpactAlgebra.

(** ** A blocked neighbour *)

Section Neighbour.
Context {methods : BodyMethods} {probe : OverlapProbe}.

Lemma separate1_blocks (collisionInfo : CollisionInfo.t) (leftFace : bool)
    (body1 body2 : Body.t) (nx1 : R) :
  nx1 <> 0 ->
  (if leftFace then isBlockedLeft body2 else isBlockedRight body2) = true ->
  fst (separate1 collisionInfo leftFace body1 body2 nx1)
  = if leftFace then setBlockedLeft body1 collisionInfo body2
    else setBlockedRight body1 collisionInfo body2.
Proof.
  intros Hnx Hb. unfold separate1.
  apply Reqb_false in Hnx. rewrite Hnx. cbn [negb].
  destruct leftFace; cbn [negb]; rewrite Hb;
    match goal with |- context [if ?c then (_, 0) else _] => destruct c end;
    reflexivity.
Qed.

Lemma separate2_blocks (collisionInfo : CollisionInfo.t) (leftFace : bool)
    (body1 body2 : Body.t) (nx2 : R) :
  nx2 <> 0 ->
  (if leftFace then isBlockedRight body1 else isBlockedLeft body1) = true ->
  fst (separate2 collisionInfo leftFace body1 body2 nx2)
  = if leftFace then setBlockedRight body2 collisionInfo body1
    else setBlockedLeft body2 collisionInfo body1.
Proof.
  intros Hnx Hb. unfold separate2.
  apply Reqb_false in Hnx. rewrite Hnx. cbn [negb].
  destruct leftFace; cbn [negb]; rewrite Hb;
    match goal with |- context [if ?c then (_, 0) else _] => destruct c end;
    reflexivity.
Qed.

(** X14. A body whose velocity after damping is nonzero and whose neighbour
    reports the tested face blocked is marked blocked by that neighbour
    instead of being translated: its [y] is what it was. For the first body
    the neighbour is the second body as passed in; for the second body it is
    the first body as its own step left it. *)
Theorem blocked_neighbour_blocks_instead (frame : BodyMethodsFrame methods)
    (this : option Receiver) (body1 body2 : Body.t) (overlapOnly : bool)
    (bias : R) :
  let collisionInfo := GetOverlapX body1 body2 overlapOnly bias in
  let leftFace := Facing_eqb (CollisionInfo.face collisionInfo) FACING_LEFT in
  let after := SeparateX this body1 body2 overlapOnly bias in
  let damped1 :=
    flipFlop body1 (Vector2.x (Body.velocity body1))
      (fst (impact leftFace body1 body2)) in
  let damped2 :=
    flipFlop body2 (Vector2.x (Body.velocity body2))
      (snd (impact leftFace body1 body2)) in
  let stepped1 := fst (fst (beforeWake collisionInfo body1 body2)) in
  let stepped2 := fst (snd (beforeWake collisionInfo body1 body2)) in
  aborts collisionInfo body1 body2 overlapOnly = false ->
  degenerate collisionInfo = false ->
  (damped1 <> 0 ->
   (if leftFace then isBlockedLeft body2 else isBlockedRight body2) = true ->
   stepped1 = (if leftFace then setBlockedLeft body1 collisionInfo body2
               else setBlockedRight body1 collisionInfo body2)
   /\ Body.y (out1 after) = Body.y body1)
  /\ (damped2 <> 0 ->
      (if leftFace then isBlockedRight stepped1 else isBlockedLeft stepped1)
      = true ->
      stepped2 = (if leftFace then setBlockedRight body2 collisionInfo stepped1
                  else setBlockedLeft body2 collisionInfo stepped1)
      /\ Body.y (out2 after) = Body.y body2).
Proof.
  intros collisionInfo leftFace after damped1 damped2 stepped1 stepped2 Ha Hd.
  unfold after. rewrite SeparateX_proceeds by assumption.
  fold collisionInfo. cbv zeta.
  unfold Body.with_velocity_x. cbn [out1 out2 Body.y].
  rewrite !(wakey_y frame).
  fold stepped1 stepped2.
  assert (E1 : stepped1
               = fst (separate1 collisionInfo leftFace body1 body2 damped1))
    by reflexivity.
  assert (E2 : stepped2
               = fst (separate2 collisionInfo leftFace stepped1 body2 damped2))
    by reflexivity.
  split; intros Hnx Hb.
  - rewrite E1, (separate1_blocks _ _ _ _ _ Hnx Hb).
    split; [reflexivity|].
    destruct leftFace;
      [apply setBlockedLeft_y | apply setBlockedRight_y].
  - rewrite E2, (separate2_blocks _ _ _ _ _ Hnx Hb).
    split; [reflexivity|].
    destruct leftFace;
      [apply setBlockedRight_y | apply setBlockedLeft_y].
Qed.

End Neighbour.

(** ** The further properties at sample calls *)

Lemma SpecBody_frame : BodyMethodsFrame SpecBody.methods.
Proof. split; reflexivity. Qed.

Section MoreCalls.
Import Sample.

(** A pair that is apart and not embedded: the call returns [false] and
    both bodies are as before. *)
Lemma false_result_leaves_bodies_witness :
  let after := resolve apart inWorld (resting 1 0 0) (resting 2 5 0) false 0 in
  out1 after = resting 1 0 0 /\ out2 after = resting 2 5 0.
Proof.
  intros after.
  assert (H : completion after = Return false)
    by (unfold after; evaluate; reflexivity).
  destruct (@false_result_leaves_bodies SpecBody.methods
              (SpecBody.reports apart) inWorld (resting 1 0 0)
              (resting 2 5 0) false 0 H) as (A & B & _).
  split; assumption.
Defined.

(** An [overlapOnly] call on an intersecting pair, made in a world, returns
    [true] and changes nothing. *)
Lemma SeparateX_aborted_in_world_witness :
  exists v,
    resolve (contact FACING_LEFT 2 1 1) inWorld (resting 1 10 0)
      (resting 2 0 0) true 0
    = mkOutcome (resting 1 10 0) (resting 2 0 0) (Return v)
    /\ v = true.
Proof.
  destruct (@SeparateX_aborted_in_world SpecBody.methods
              (SpecBody.reports (contact FACING_LEFT 2 1 1))
              (mkReceiver (Some (mkWorld 7))) (mkWorld 7) (resting 1 10 0)
              (resting 2 0 0) true 0 eq_refl eq_refl) as [v [E I]].
  exists v. split; [exact E|].
  apply I. left. split; [reflexivity | run; lra].
Defined.

(** The body bouncing off the wall keeps its [x]. *)
Lemma SeparateX_never_writes_x_witness :
  let after :=
    resolve (contact FACING_LEFT 2 2 0) inWorld bouncer (wall 2 0 20) false 0 in
  Body.x (out1 after) = Body.x bouncer
  /\ Body.x (out2 after) = Body.x (wall 2 0 20).
Proof.
  apply (@SeparateX_never_writes_x SpecBody.methods
           (SpecBody.reports (contact FACING_LEFT 2 2 0)) SpecBody_laws).
Defined.

(** The body bouncing off the wall has its [y] left alone or moved by its
    share; the wall by its own. *)
Lemma SeparateX_moves_y_by_own_share_witness :
  let after :=
    resolve (contact FACING_LEFT 2 2 0) inWorld bouncer (wall 2 0 20) false 0 in
  (Body.y (out1 after) = Body.y bouncer
   \/ Body.y (out1 after) = Body.y bouncer + 2)
  /\ (Body.y (out2 after) = Body.y (wall 2 0 20)
      \/ Body.y (out2 after) = Body.y (wall 2 0 20) + 0).
Proof.
  apply (@SeparateX_moves_y_by_own_share SpecBody.methods
           (SpecBody.reports (contact FACING_LEFT 2 2 0)) SpecBody_frame).
Defined.

(** A body with minimum velocity 2, not sleeping, bounces off the wall: its
    velocity reverses from -3 to 3, which reaches the threshold. *)
Lemma reversed_velocity_reaches_threshold_witness :
  let body1 := mover 1 10 20 (-3) 1 2 1 false in
  let after :=
    resolve (contact FACING_LEFT 2 2 0) inWorld body1 (wall 2 0 20) false 0 in
  Vector2.x (Body.velocity (out1 after)) = 3
  /\ 2 <= Rabs (Vector2.x (Body.velocity (out1 after))).
Proof.
  intros body1 after.
  destruct (@reversed_velocity_reaches_threshold SpecBody.methods
              (SpecBody.reports (contact FACING_LEFT 2 2 0)) inWorld body1
              (wall 2 0 20) false 0 eq_refl) as [H _].
  assert (V : Vector2.x (Body.velocity (out1 after)) = 3)
    by (unfold after, body1; evaluate; lra).
  split; [exact V|].
  apply H; [reflexivity|].
  left. split; [unfold body1; run; lra | unfold body1; evaluate; lra].
Defined.

(** A body with velocity -3 that is blocked on its left, so not moving,
    against a resting body: its velocity is dropped to 0. *)
Lemma pair_at_rest_stops_witness :
  let body1 := blockedLeft (mover 1 10 0 (-3) 1 0 1 false) in
  let after :=
    resolve (contact FACING_LEFT 2 1 1) inWorld body1 (resting 2 0 0) false 0 in
  Vector2.x (Body.velocity body1) = -3
  /\ Vector2.x (Body.velocity (out1 after)) = 0
  /\ Vector2.x (Body.velocity (out2 after)) = 0.
Proof.
  intros body1 after.
  split; [reflexivity|].
  apply (@pair_at_rest_stops SpecBody.methods
           (SpecBody.reports (contact FACING_LEFT 2 1 1)) inWorld
           body1 (resting 2 0 0) false 0 eq_refl);
    unfold body1; tests; reflexivity.
Defined.

(** A body moving left at 3 meets a resting neighbour that is blocked on its
    left: the body is marked blocked by the neighbour, keeps its [y] and is
    stopped. *)
Lemma blocked_body_is_stopped_witness :
  let after :=
    resolve (contact FACING_LEFT 2 1 1) inWorld (mover 1 10 0 (-3) 1 0 1 false)
      (blockedLeft (resting 2 0 0)) false 0 in
  Vector2.x (Body.velocity (out1 after)) = 0.
Proof.
  intros after.
  destruct (@blocked_body_is_stopped SpecBody.methods
              (SpecBody.reports (contact FACING_LEFT 2 1 1)) SpecBody_frame
              inWorld (mover 1 10 0 (-3) 1 0 1 false)
              (blockedLeft (resting 2 0 0)) false 0 eq_refl) as [H _].
  apply H. evaluate. reflexivity.
Defined.

Lemma blocked_neighbour_blocks_instead_witness :
  let body1 := mover 1 10 0 (-3) 1 0 1 false in
  let body2 := blockedLeft (resting 2 0 0) in
  let collisionInfo := contact FACING_LEFT 2 1 1 in
  let after := resolve collisionInfo inWorld body1 body2 false 0 in
  fst (fst (@beforeWake SpecBody.methods collisionInfo body1 body2))
  = SpecBody.setBlockedLeft body1 collisionInfo body2
  /\ Body.y (out1 after) = Body.y body1.
Proof.
  intros body1 body2 collisionInfo after.
  assert (Hd : degenerate collisionInfo = false)
    by (unfold collisionInfo; tests; reflexivity).
  destruct (@blocked_neighbour_blocks_instead SpecBody.methods
              (SpecBody.reports collisionInfo) SpecBody_frame inWorld body1
              body2 false 0 eq_refl Hd) as [H _].
  apply H; [|reflexivity].
  unfold body1, body2, collisionInfo. evaluate. lra.
Defined.

(** The wall the body bounces off comes out as it went in. *)
Lemma obstacle_at_rest_untouched_witness :
  out2 (resolve (contact FACING_LEFT 2 2 0) inWorld bouncer (wall 2 0 20)
          false 0)
  = wall 2 0 20.
Proof.
  destruct (@obstacle_at_rest_untouched SpecBody.methods
              (SpecBody.reports (contact FACING_LEFT 2 2 0)) inWorld bouncer
              (wall 2 0 20) false 0 eq_refl) as [_ H].
  apply H. repeat split; try reflexivity. tests. reflexivity.
Defined.

(** The body bouncing off the wall with bounce 1 turns back, no faster. *)
Lemma mover_turns_back_at_obstacle_witness :
  let after :=
    resolve (contact FACING_LEFT 2 2 0) inWorld bouncer (wall 2 0 20) false 0 in
  Vector2.x (Body.velocity bouncer) * Vector2.x (Body.velocity (out1 after))
  <= 0
  /\ Rabs (Vector2.x (Body.velocity (out1 after)))
     <= Rabs (Vector2.x (Body.velocity bouncer)).
Proof.
  intros after.
  destruct (@mover_turns_back_at_obstacle SpecBody.methods
              (SpecBody.reports (contact FACING_LEFT 2 2 0)) inWorld bouncer
              (wall 2 0 20) false 0 eq_refl) as [H _].
  assert (M : @movingX SpecBody.methods bouncer = true)
    by (tests; reflexivity).
  assert (O : @movingX SpecBody.methods (wall 2 0 20) = false
              /\ Body.rideable (wall 2 0 20) = false
              /\ Vector2.x (Body.velocity (wall 2 0 20)) = 0)
    by (repeat split; try reflexivity; tests; reflexivity).
  assert (B : 0 <= Vector2.x (Body.bounce bouncer)) by (run; lra).
  destruct (H M O B) as [T1 T2].
  split; [exact T1 | apply T2; run; lra].
Defined.

End MoreCalls.

(** * The velocity a call commits *)

Section Committed.
Context {methods : BodyMethods} {probe : OverlapProbe}.











End Committed.

(** ** The committed velocities at sample calls *)

Lemma sqrt_of_square (a r : R) : 0 <= r -> a = r * r -> sqrt a = r.
Proof. intros Hr ->. apply sqrt_square. exact Hr. Qed.

(** The numeric tests once more, now also taking the square roots 4 and 5/2
    of the sample call below. *)
Ltac decide_test ::=
  match goal with
  | |- context [sqrt ?a] =>
      first [ rewrite (sqrt_of_square a 4) by lra
            | rewrite (sqrt_of_square a (5 / 2)) by lra ]
  | |- context [Rabs ?a] =>
      first [ rewrite (Rabs_pos_eq a) by lra | rewrite (Rabs_left a) by lra ]
  | |- context [Rltb ?a ?b] =>
      first [ rewrite (proj2 (Rltb_true a b)) by lra
            | rewrite (proj2 (Rltb_false a b)) by lra ]
  | |- context [Reqb ?a ?b] =>
      first [ rewrite (proj2 (Reqb_true a b)) by lra
            | rewrite (proj2 (Reqb_false a b)) by lra ]
  end.

Section CommittedCalls.
Import Sample.





End CommittedCalls.
